(** * create_odt_ref_doc: the style reference document builder

    A shallow embedding of [src/create_odt_ref_doc.py].  The script
    builds one OpenDocument text document through the odfpy library,
    saves it and prints a confirmation.

    The script is straight-line code over mutable library objects, so
    the embedding is a state-and-exception monad over a store of
    elements.  Python object identity is a store index ([ref]); an
    element that is appended to a parent and changed afterwards is the
    same store cell, seen through both names.

    The odfpy calls the script makes are modelled by what they do to
    the element tree:
    - a class call such as [P(stylename=st, text="...")] allocates an
      element with the keyword arguments as attributes and, when [text]
      is given, one text child;
    - [parent.addElement(child)] appends [child] to the child nodes of
      [parent], unless the library's schema refuses that nesting, in
      which case it raises;
    - [doc.save(name, addsuffix)] writes the document to storage;
    - [print] appends one line to standard output.
    The library's schema table and the state of the storage are not
    part of the repository: they are parameters of the development. *)

From Stdlib Require Import FunctionalExtensionality Ascii String.
From stdpp Require Import base option list strings.

Open Scope string_scope.
Open Scope list_scope.
Open Scope nat_scope.

(** ** Elements *)

(** The element kinds the script instantiates, named after the
    qualified XML name of the odfpy class. *)
Inductive qname :=
  | office_styles | office_automatic_styles | office_master_styles
  | office_text
  | style_style | style_page_layout | style_page_layout_properties
  | style_master_page | text_list_style | text_list_level_style_bullet
  | text_p | text_span | text_list | text_list_item
  | text_note | text_note_citation | text_note_body
  | table_table | table_table_column | table_table_row | table_table_cell
  | draw_frame | draw_text_box.

#[global] Instance qname_eq_dec : EqDecision qname.
Proof. solve_decision. Defined.

(** A Python object reference: the index of the object in the store. *)
Abbreviation ref := nat (only parsing).

(** The value of a keyword argument: a string literal, or another
    element passed as an object ([stylename=heading_1_style]). *)
Inductive value :=
  | VStr (s : string)
  | VRef (r : ref).

#[global] Instance value_eq_dec : EqDecision value.
Proof. solve_decision. Defined.

(** A child node: character data or a child element. *)
Inductive node :=
  | Text (s : string)
  | Child (r : ref).

#[global] Instance node_eq_dec : EqDecision node.
Proof. solve_decision. Defined.

Record element := Element {
  tagName : qname;
  attributes : list (string * value);
  childNodes : list node
}.

#[global] Instance element_eq_dec : EqDecision element.
Proof. solve_decision. Defined.

(** The four parts of an [OpenDocumentText] that the script touches. *)
Record document := Document {
  styles : ref;
  automaticstyles : ref;
  masterstyles : ref;
  text : ref
}.

#[global] Instance document_eq_dec : EqDecision document.
Proof. solve_decision. Defined.

(** ** The world *)

(** Where [save] writes: a named file, or standard output for the
    reserved name ["-"]. *)
Inductive destination :=
  | Stdout
  | File (path : string).

#[global] Instance destination_eq_dec : EqDecision destination.
Proof. solve_decision. Defined.

(** What [save] writes: the document and the store it lives in, as
    they are at the time of the call. *)
Record payload := Payload {
  saved_doc : document;
  saved_heap : list element
}.

#[global] Instance payload_eq_dec : EqDecision payload.
Proof. solve_decision. Defined.

(** The history of library calls, oldest first.  [EvAdd] records both
    elements as they were when [addElement] was called. *)
Inductive event :=
  | EvDoc (d : document)
  | EvNew (r : ref) (e : element)
  | EvAdd (parent child : ref) (pe ce : element)
  | EvSave (d : destination) (p : payload)
  | EvPrint (msg : string).

#[global] Instance event_eq_dec : EqDecision event.
Proof. solve_decision. Defined.

Record world := World {
  heap : list element;
  written : list (destination * payload);
  printed : list string;
  log : list event
}.

Definition empty_world : world := World [] [] [] [].

(** ** Exceptions and the monad *)

Inductive exn :=
  | IllegalChild (child parent : qname)
  | IOError (d : destination)
  | Dangling (r : ref).

Inductive result (A : Type) :=
  | Ok (a : A)
  | Raise (e : exn).
Arguments Ok {A} a.
Arguments Raise {A} e.

(** A computation runs in a world and leaves a world behind, also when
    it raises: what was built before the exception stays built. *)
Definition M (A : Type) : Type := world → result A * world.

#[global] Instance M_ret : MRet M := λ A a w, (Ok a, w).

#[global] Instance M_bind : MBind M := λ A B f m w,
  match m w with
  | (Ok a, w') => f a w'
  | (Raise e, w') => (Raise e, w')
  end.

Section Script.

(** The schema check of the library: may an element of the second kind
    be added under an element of the first kind? *)
Variable allowed_children : qname → qname → bool.

(** The storage: can this destination be written? *)
Variable writable : destination → bool.

(** ** The library calls *)

(** The class call [cls(key=value, ..., text=...)].  The new object gets
    the next free store index. *)
Definition new (q : qname) (kwargs : list (string * value))
    (txt : option string) : M ref := λ w,
  let r := length (heap w) in
  let e := Element q kwargs (match txt with Some s => [Text s] | None => [] end) in
  (Ok r, World (heap w ++ [e]) (written w) (printed w) (log w ++ [EvNew r e])).

Definition appendChild (c : node) (e : element) : element :=
  Element (tagName e) (attributes e) (childNodes e ++ [c]).

(** [parent.addElement(child)].  The library also keeps a register of
    style names and gives a [Style] another name when its name is in use
    already; that bookkeeping is not modelled.  It does not arise in a
    run of the script, whose style names are all distinct. *)
Definition addElement (parent child : ref) : M () := λ w,
  match heap w !! parent, heap w !! child with
  | Some pe, Some ce =>
      if allowed_children (tagName pe) (tagName ce) then
        (Ok (), World (alter (appendChild (Child child)) parent (heap w))
                      (written w) (printed w)
                      (log w ++ [EvAdd parent child pe ce]))
      else (Raise (IllegalChild (tagName ce) (tagName pe)), w)
  | None, _ => (Raise (Dangling parent), w)
  | _, None => (Raise (Dangling child), w)
  end.

(** [OpenDocumentText()] *)
Definition OpenDocumentText : M document := λ w,
  let n := length (heap w) in
  let d := Document n (S n) (S (S n)) (S (S (S n))) in
  (Ok d, World (heap w ++ [Element office_styles [] [];
                           Element office_automatic_styles [] [];
                           Element office_master_styles [] [];
                           Element office_text [] []])
               (written w) (printed w) (log w ++ [EvDoc d])).

Definition save_destination (outputfile : string) (addsuffix : bool)
    : destination :=
  if decide (outputfile = "-") then Stdout
  else File (if addsuffix then outputfile +:+ ".odt" else outputfile).

(** [doc.save(outputfile, addsuffix)].  Whether a destination can be
    written, standard output included, is for the storage to say. *)
Definition save (doc : document) (outputfile : string) (addsuffix : bool)
    : M () := λ w,
  let d := save_destination outputfile addsuffix in
  if writable d then
    let p := Payload doc (heap w) in
    (Ok (), World (heap w) (written w ++ [(d, p)]) (printed w)
                  (log w ++ [EvSave d p]))
  else (Raise (IOError d), w).

(** [print(msg)] *)
Definition print (msg : string) : M () := λ w,
  (Ok (), World (heap w) (written w) (printed w ++ [msg])
                (log w ++ [EvPrint msg])).

(** The odfpy classes the script imports and calls. *)
Definition Style := new style_style.
Definition PageLayout := new style_page_layout.
Definition PageLayoutProperties := new style_page_layout_properties.
Definition MasterPage := new style_master_page.
Definition ListStyle := new text_list_style.
Definition ListLevelStyleBullet := new text_list_level_style_bullet.
Definition P := new text_p.
Definition Span := new text_span.
Definition List := new text_list.
Definition ListItem := new text_list_item.
Definition Note := new text_note.
Definition NoteCitation := new text_note_citation.
Definition NoteBody := new text_note_body.
Definition Table := new table_table.
Definition TableColumn := new table_table_column.
Definition TableRow := new table_table_row.
Definition TableCell := new table_table_cell.
Definition Frame := new draw_frame.
Definition TextBox := new draw_text_box.

(** ** The helpers nested in [create_odt_ref_doc]

    In the source they are closures over [doc]; here [doc] is their
    first argument. *)

Definition make_parastyle (doc : document) (name : string) : M ref :=
  st ← Style [("name", VStr name); ("family", VStr "paragraph")] None;
  addElement (styles doc) st;;
  mret st.

Definition make_charstyle (doc : document) (name : string) : M ref :=
  st ← Style [("name", VStr name); ("family", VStr "text")] None;
  addElement (styles doc) st;;
  mret st.

Definition make_framestyle (doc : document) (name : string) : M ref :=
  st ← Style [("name", VStr name); ("family", VStr "graphic")] None;
  addElement (styles doc) st;;
  mret st.

Definition make_pagestyle (doc : document) (name : string) : M () :=
  pl ← PageLayout [("name", VStr (name +:+ "_Layout"))] None;
  addElement (automaticstyles doc) pl;;
  plprop ← PageLayoutProperties [("margin", VStr "2cm")] None;
  addElement pl plprop;;
  mp ← MasterPage [("name", VStr name); ("pagelayoutname", VRef pl)] None;
  addElement (masterstyles doc) mp.

Definition make_liststyle (doc : document) (name : string) : M ref :=
  ls ← ListStyle [("name", VStr name)] None;
  addElement (automaticstyles doc) ls;;
  level_style ← ListLevelStyleBullet
                  [("level", VStr "1"); ("bulletchar", VStr "•")] None;
  addElement ls level_style;;
  mret ls.

Definition make_tablestyle (doc : document) (name : string) : M ref :=
  ts ← Style [("name", VStr name); ("family", VStr "table")] None;
  addElement (automaticstyles doc) ts;;
  mret ts.

(** The newline character of [Span(text="\n")]. *)
Definition newline : string := String "010"%char EmptyString.

Definition default_filename : string := "LibreOfficeStylesRefDoc".

(** ** The script

    [filename] is [None] when the caller passes no argument; the
    default of the signature is then used. *)
Definition create_odt_ref_doc (filename_arg : option string) : M () :=
  let filename := default default_filename filename_arg in
  doc ← OpenDocumentText;

  heading_1_style ← make_parastyle doc "Heading 1";
  heading_2_style ← make_parastyle doc "Heading 2";
  heading_3_style ← make_parastyle doc "Heading 3";
  heading_4_style ← make_parastyle doc "Heading 4";
  heading_5_style ← make_parastyle doc "Heading 5";
  heading_6_style ← make_parastyle doc "Heading 6";

  body_text_style ← make_parastyle doc "Body Text";
  body_text_indent_style ← make_parastyle doc "Body Text Indent";
  preformatted_style ← make_parastyle doc "Preformatted Text";
  quotation_style ← make_parastyle doc "Quotation";
  first_line_indent_style ← make_parastyle doc "First Line Indent";

  list_parastyle ← make_parastyle doc "List";
  list_1_style ← make_parastyle doc "List 1";
  list_2_style ← make_parastyle doc "List 2";
  list_3_style ← make_parastyle doc "List 3";
  list_contents_style ← make_parastyle doc "List Contents";

  index_style ← make_parastyle doc "Index";
  index_heading_style ← make_parastyle doc "Index Heading";

  caption_style ← make_parastyle doc "Caption";
  table_contents_style ← make_parastyle doc "Table Contents";

  footnote_style ← make_parastyle doc "Footnote";
  endnote_style ← make_parastyle doc "Endnote";
  biblio_entry_style ← make_parastyle doc "Bibliography Entry";
  signature_style ← make_parastyle doc "Signature";
  marginalia_style ← make_parastyle doc "Marginalia";
  drop_caps_style ← make_parastyle doc "Drop Caps";
  frame_contents_style ← make_parastyle doc "Frame Contents";

  default_para_style ← make_parastyle doc "Default Style";

  default_char_style ← make_charstyle doc "Default Style (Character)";
  emphasis_char_style ← make_charstyle doc "Emphasis";
  strong_char_style ← make_charstyle doc "Strong Emphasis";
  source_text_char_style ← make_charstyle doc "Source Text";
  example_char_style ← make_charstyle doc "Example";
  code_char_style ← make_charstyle doc "Code";
  user_entry_char_style ← make_charstyle doc "User Entry";
  teletype_char_style ← make_charstyle doc "Teletype";
  footnote_char_style ← make_charstyle doc "Footnote Characters";
  endnote_char_style ← make_charstyle doc "Endnote Characters";
  rubies_char_style ← make_charstyle doc "Rubies";
  annotation_char_style ← make_charstyle doc "Annotation";
  citation_char_style ← make_charstyle doc "Citation";

  (* Heading paragraphs *)
  P [("stylename", VRef heading_1_style)]
    (Some "Heading 1: This paragraph demonstrates Heading 1.")
    ≫= addElement (text doc);;
  P [("stylename", VRef heading_2_style)]
    (Some "Heading 2: This paragraph demonstrates Heading 2.")
    ≫= addElement (text doc);;
  P [("stylename", VRef heading_3_style)]
    (Some "Heading 3: This paragraph demonstrates Heading 3.")
    ≫= addElement (text doc);;
  P [("stylename", VRef heading_4_style)]
    (Some "Heading 4: This paragraph demonstrates Heading 4.")
    ≫= addElement (text doc);;
  P [("stylename", VRef heading_5_style)]
    (Some "Heading 5: This paragraph demonstrates Heading 5.")
    ≫= addElement (text doc);;
  P [("stylename", VRef heading_6_style)]
    (Some "Heading 6: This paragraph demonstrates Heading 6.")
    ≫= addElement (text doc);;

  (* Body text *)
  P [("stylename", VRef body_text_style)]
    (Some "Body Text: This paragraph uses the Body Text style.")
    ≫= addElement (text doc);;
  P [("stylename", VRef body_text_indent_style)]
    (Some "Body Text Indent: This paragraph uses the Body Text Indent style (indented).")
    ≫= addElement (text doc);;
  P [("stylename", VRef preformatted_style)]
    (Some "Preformatted Text: Typically, spacing is preserved in this style.")
    ≫= addElement (text doc);;
  P [("stylename", VRef quotation_style)]
    (Some "Quotation: This paragraph demonstrates the Quotation style.")
    ≫= addElement (text doc);;
  P [("stylename", VRef first_line_indent_style)]
    (Some "First Line Indent: The first line of this paragraph should be indented.")
    ≫= addElement (text doc);;

  (* Default style *)
  P [("stylename", VRef default_para_style)]
    (Some "Default Style: This paragraph uses the general default style.")
    ≫= addElement (text doc);;

  (* Character styles in a single paragraph *)
  para ← P [] (Some "Character Styles Demonstration: ");
  span1 ← Span [("stylename", VRef emphasis_char_style)] (Some "Emphasis style, ");
  addElement para span1;;
  span2 ← Span [("stylename", VRef strong_char_style)] (Some "Strong Emphasis style, ");
  addElement para span2;;
  span3 ← Span [("stylename", VRef code_char_style)] (Some "Code style, ");
  addElement para span3;;
  span4 ← Span [("stylename", VRef citation_char_style)] (Some "Citation style.");
  addElement para span4;;
  addElement (text doc) para;;

  (* Lists demonstration *)
  demo_list ← List [("stylename", VRef list_parastyle)] None;
  li1 ← ListItem [] None;
  P [("stylename", VRef list_1_style)] (Some "List item 1 (List 1 style).")
    ≫= addElement li1;;
  addElement demo_list li1;;

  li2 ← ListItem [] None;
  P [("stylename", VRef list_2_style)] (Some "List item 2 (List 2 style).")
    ≫= addElement li2;;
  addElement demo_list li2;;

  li3 ← ListItem [] None;
  P [("stylename", VRef list_3_style)] (Some "List item 3 (List 3 style).")
    ≫= addElement li3;;
  addElement demo_list li3;;

  P [("stylename", VRef list_contents_style)]
    (Some "Below is a simple list using 'List Contents' for paragraphs:")
    ≫= addElement (text doc);;
  addElement (text doc) demo_list;;

  (* Index styles demonstration *)
  P [("stylename", VRef index_heading_style)]
    (Some "Index Heading: This could appear at the start of an index section.")
    ≫= addElement (text doc);;
  P [("stylename", VRef index_style)]
    (Some "Index: This paragraph demonstrates the Index style.")
    ≫= addElement (text doc);;

  (* Caption style *)
  P [("stylename", VRef caption_style)]
    (Some "Caption: Typically used for describing an image/table.")
    ≫= addElement (text doc);;

  (* Table demonstration *)
  table ← Table [] None;
  TableColumn [] None ≫= addElement table;;
  TableColumn [] None ≫= addElement table;;

  row ← TableRow [] None;
  cell1 ← TableCell [] None;
  P [("stylename", VRef table_contents_style)] (Some "Table Contents: Cell 1")
    ≫= addElement cell1;;
  addElement row cell1;;

  cell2 ← TableCell [] None;
  P [("stylename", VRef table_contents_style)] (Some "Table Contents: Cell 2")
    ≫= addElement cell2;;
  addElement row cell2;;

  addElement table row;;
  addElement (text doc) table;;

  (* Footnote and endnote demonstration *)
  footnote_paragraph ← P [("stylename", VRef footnote_style)]
    (Some "Footnote style paragraph. This paragraph is typically used for footnotes.");
  addElement (text doc) footnote_paragraph;;

  footnote_text ← P [] (Some "This is a sample footnote text.");
  footnote ← Note [("noteclass", VStr "footnote")] None;
  NoteCitation [] (Some "1") ≫= addElement footnote;;
  footnote_body ← NoteBody [] None;
  addElement footnote_body footnote_text;;
  addElement footnote footnote_body;;

  anchored_para ← P [] (Some "Some main text that references a footnote");
  addElement anchored_para footnote;;
  addElement (text doc) anchored_para;;

  endnote_paragraph ← P [("stylename", VRef endnote_style)]
    (Some "Endnote style paragraph. This paragraph is typically used for endnotes.");
  addElement (text doc) endnote_paragraph;;

  (* Bibliography entry *)
  P [("stylename", VRef biblio_entry_style)]
    (Some "Bibliography Entry: This paragraph could be used for references or citations.")
    ≫= addElement (text doc);;

  (* Signature, Marginalia, Drop Caps, Frame Contents *)
  P [("stylename", VRef signature_style)]
    (Some "Signature: This might be used for signing a document.")
    ≫= addElement (text doc);;
  P [("stylename", VRef marginalia_style)]
    (Some "Marginalia: Typically, text that might appear in the margin.")
    ≫= addElement (text doc);;
  P [("stylename", VRef drop_caps_style)]
    (Some "Drop Caps: This style could be used at the start of a chapter.")
    ≫= addElement (text doc);;
  P [("stylename", VRef frame_contents_style)]
    (Some "Frame Contents: Used inside frames.")
    ≫= addElement (text doc);;

  (* Frame demonstration *)
  frame_style ← make_framestyle doc "Frame Style";

  frame ← Frame [("width", VStr "7cm"); ("height", VStr "1cm");
                 ("stylename", VRef frame_style)] None;
  tb ← TextBox [] None;
  tb_p ← P [("stylename", VRef frame_contents_style)]
    (Some "Inside a frame (Frame Contents).");
  addElement tb tb_p;;
  addElement frame tb;;
  addElement (text doc) frame;;

  (* Page styles demonstration *)
  make_pagestyle doc "Default Style (Page)";;
  make_pagestyle doc "First Page";;
  make_pagestyle doc "Left Page";;
  make_pagestyle doc "Right Page";;
  make_pagestyle doc "Index Page";;
  make_pagestyle doc "Envelope";;
  make_pagestyle doc "Landscape";;
  make_pagestyle doc "Endnote Page";;
  make_pagestyle doc "Footnote Page";;

  pagebreak_para ← P [] (Some "=== Manual page break to 'First Page' style below ===");
  addElement (text doc) pagebreak_para;;
  Span [] (Some newline) ≫= addElement pagebreak_para;;

  P [] (Some "Now we are on a new page (ideally with 'First Page' style).")
    ≫= addElement (text doc);;

  (* List styles demonstration *)
  numbering1 ← make_liststyle doc "Numbering 1";
  numbering2 ← make_liststyle doc "Numbering 2";
  numbering3 ← make_liststyle doc "Numbering 3";
  numbering4 ← make_liststyle doc "Numbering 4";
  numbering5 ← make_liststyle doc "Numbering 5";

  bullet1 ← make_liststyle doc "Bullet 1";
  bullet2 ← make_liststyle doc "Bullet 2";
  bullet3 ← make_liststyle doc "Bullet 3";
  bullet4 ← make_liststyle doc "Bullet 4";
  bullet5 ← make_liststyle doc "Bullet 5";

  default_list_style ← make_liststyle doc "Default List Style";

  P [] (Some "Numbering & Bullet list styles declared (Numbering 1..5, Bullet 1..5).")
    ≫= addElement (text doc);;

  (* Table styles demonstration *)
  default_table_style ← make_tablestyle doc "Default Table Style";
  academic_table_style ← make_tablestyle doc "Academic";
  elegant_table_style ← make_tablestyle doc "Elegant";
  financial_table_style ← make_tablestyle doc "Financial";
  simple_grid_table_style ← make_tablestyle doc "Simple Grid";
  box_list_table_style ← make_tablestyle doc "Box List";
  blue_table_style ← make_tablestyle doc "Blue";
  yellow_table_style ← make_tablestyle doc "Yellow";
  gray_table_style ← make_tablestyle doc "Gray";
  green_table_style ← make_tablestyle doc "Green";
  orange_table_style ← make_tablestyle doc "Orange";

  P [] (Some "Additional table styles (Academic, Elegant, Financial, etc.) defined.")
    ≫= addElement (text doc);;

  (* Save the document *)
  save doc filename true;;
  print ("Created " +:+ filename +:+ " successfully.").

(** The [__main__] block. *)
Definition main : M () := create_odt_ref_doc (Some "LibreOfficeStylesRefDoc").

End Script.

(** ** The schema the script needs *)

(** The nestings (parent kind, child kind) that the script asks
    [addElement] for, in the order of their first use. *)
Definition script_nestings : list (qname * qname) :=
  [ (office_styles, style_style);
    (office_text, text_p);
    (text_p, text_span);
    (text_list_item, text_p);
    (text_list, text_list_item);
    (office_text, text_list);
    (table_table, table_table_column);
    (table_table_cell, text_p);
    (table_table_row, table_table_cell);
    (table_table, table_table_row);
    (office_text, table_table);
    (text_note, text_note_citation);
    (text_note_body, text_p);
    (text_note, text_note_body);
    (text_p, text_note);
    (draw_text_box, text_p);
    (draw_frame, draw_text_box);
    (office_text, draw_frame);
    (office_automatic_styles, style_page_layout);
    (style_page_layout, style_page_layout_properties);
    (office_master_styles, style_master_page);
    (office_automatic_styles, text_list_style);
    (text_list_style, text_list_level_style_bullet);
    (office_automatic_styles, style_style) ].

(** The least schema under which the script runs. *)
Definition script_schema (parent child : qname) : bool :=
  bool_decide ((parent, child) ∈ script_nestings).

(** A schema accepts the script when it allows each of these nestings. *)
Definition schema_accepts (allowed_children : qname → qname → bool) : Prop :=
  forallb (λ pc, allowed_children pc.1 pc.2) script_nestings = true.

(** The schema that allows every nesting. *)
Definition all_allowed : qname → qname → bool := λ _ _, true.

(** The schema that allows no nesting. *)
Definition nothing_allowed : qname → qname → bool := λ _ _, false.

(** A storage that takes every write, and one that takes none. *)
Definition any_storage : destination → bool := λ _, true.
Definition no_storage : destination → bool := λ _, false.

(** ** Runs of the script *)

(** A run of the script starts in the empty world. *)
Definition run (allowed_children : qname → qname → bool)
    (writable : destination → bool) (filename_arg : option string)
    : result () * world :=
  create_odt_ref_doc allowed_children writable filename_arg empty_world.

(** The world the script has built when it reaches [doc.save]: the
    world left behind when the storage refuses the write. *)
Definition built_world : world :=
  (run script_schema no_storage None).2.

(** The document handle of a run: the first four store cells. *)
Definition built_doc : document := Document 0 1 2 3.

(** ** Reading a world *)

Definition attr (k : string) (e : element) : option value :=
  (snd ∘ snd) <$> list_find (λ kv, kv.1 = k) (attributes e).

Definition attr_str (k : string) (e : element) : option string :=
  match attr k e with Some (VStr s) => Some s | _ => None end.

(** The style handle a content node carries in [stylename]. *)
Definition style_ref (e : element) : option ref :=
  match attr "stylename" e with Some (VRef r) => Some r | _ => None end.

Definition is_style_container (q : qname) : bool :=
  match q with
  | office_styles | office_automatic_styles | office_master_styles => true
  | _ => false
  end.

(** The family of a style entry: the [family] attribute of a [Style];
    list styles and the two elements of a page style have no such
    attribute and are keyed by their kind. *)
Definition family (e : element) : option string :=
  match tagName e with
  | style_style => attr_str "family" e
  | text_list_style => Some "list"
  | style_page_layout | style_master_page => Some "page"
  | _ => None
  end.

Definition style_key (e : element) : option string * option string :=
  (attr_str "name" e, family e).

(** The registration calls of a history: the [addElement] calls on a
    style container, with the style as it was registered. *)
Definition registrations (l : list event) : list (ref * element) :=
  omap (λ ev, match ev with
              | EvAdd _ c pe ce =>
                  if is_style_container (tagName pe) then Some (c, ce) else None
              | _ => None
              end) l.

Definition child_refs (e : element) : list ref :=
  omap (λ n, match n with Child c => Some c | Text _ => None end) (childNodes e).

Definition children (h : list element) (r : ref) : list ref :=
  from_option child_refs [] (h !! r).

(** The style tables of a document: the entries under its three style
    containers. *)
Definition style_table (h : list element) (d : document) : list element :=
  omap (λ r, h !! r)
       (children h (styles d) ++ children h (automaticstyles d)
        ++ children h (masterstyles d)).

(** How many entries of a table carry a given key. *)
Definition entries_for (k : option string * option string)
    (table : list element) : nat :=
  length (filter (λ e, style_key e = k) table).

(** The documents a history opened. *)
Definition documents (l : list event) : list document :=
  omap (λ ev, match ev with EvDoc d => Some d | _ => None end) l.

(** The nestings a history asked for. *)
Definition adds (l : list event) : list (qname * qname) :=
  omap (λ ev, match ev with
              | EvAdd _ _ pe ce => Some (tagName pe, tagName ce)
              | _ => None
              end) l.

(** ** Phases of a history *)




Definition is_build (ev : event) : bool :=
  match ev with EvSave _ _ | EvPrint _ => false | _ => true end.




(** ** Style references *)

(** [styled_after reg l]: along [l], every appended node that carries
    a style handle carries one registered earlier in [l] or listed in
    [reg]. *)
Fixpoint styled_after (reg : list ref) (l : list event) : bool :=
  match l with
  | [] => true
  | EvAdd _ c pe ce :: l' =>
      from_option (λ s, bool_decide (s ∈ reg)) true (style_ref ce)
      && styled_after (if is_style_container (tagName pe) then c :: reg else reg) l'
  | _ :: l' => styled_after reg l'
  end.

(** The event appends a node that carries a style handle. *)
Definition carries_style (ev : event) : bool :=
  match ev with
  | EvAdd _ _ _ ce => bool_decide (is_Some (style_ref ce))
  | _ => false
  end.

(** [s] was registered in [l] before position [i]. *)
Definition registered_before (l : list event) (i : nat) (s : ref) : Prop :=
  ∃ j p pe se, j < i ∧ l !! j = Some (EvAdd p s pe se)
               ∧ is_style_container (tagName pe) = true.

(** ** Change after appending *)

(** Every appended element is, in the end, as it was when appended. *)
Definition frozen_after_append (w : world) : Prop :=
  ∀ p c pe ce, EvAdd p c pe ce ∈ log w → heap w !! c = Some ce.

(** [e'] is [e] with child nodes added at the end, if any. *)
Definition grown (e e' : element) : Prop :=
  tagName e' = tagName e ∧ attributes e' = attributes e
  ∧ childNodes e `prefix_of` childNodes e'.

#[global] Instance grown_dec e e' : Decision (grown e e').
Proof. unfold grown. apply _. Defined.

(** Every cell of [h] is still in [h'], grown at most. *)
Definition heap_extends (h h' : list element) : Prop :=
  ∀ r e, h !! r = Some e → ∃ e', h' !! r = Some e' ∧ grown e e'.

(** The cell [r] of [h] holds [e], grown at most. *)
Definition kept (h : list element) (r : ref) (e : element) : Prop :=
  ∃ e', h !! r = Some e' ∧ grown e e'.

#[global] Instance kept_dec h r e : Decision (kept h r e).
Proof.
  unfold kept. destruct (h !! r) as [e'|].
  - destruct (decide (grown e e')) as [Hg|Hg].
    + left. by exists e'.
    + right. intros (e'' & [= <-] & Hg'). by apply Hg.
  - right. by intros (e'' & [=] & _).
Defined.

(** The elements an event mentions are kept in [h]. *)
Definition event_kept (h : list element) (ev : event) : Prop :=
  match ev with
  | EvNew r e => kept h r e
  | EvAdd p c pe ce => kept h p pe ∧ kept h c ce
  | _ => True
  end.

#[global] Instance event_kept_dec h ev : Decision (event_kept h ev).
Proof. destruct ev; apply _. Defined.

(** ** The registration helpers as one operation *)

(** The five families of the style registry. *)
Inductive style_family :=
  | paragraph | character | graphic | table | list_family.

Definition family_name (f : style_family) : string :=
  match f with
  | paragraph => "paragraph" | character => "text" | graphic => "graphic"
  | table => "table" | list_family => "list"
  end.

(** The helper of the script that registers a style of each family. *)
Definition register (allowed_children : qname → qname → bool)
    (doc : document) (f : style_family) (name : string) : M ref :=
  match f with
  | paragraph => make_parastyle allowed_children doc name
  | character => make_charstyle allowed_children doc name
  | graphic => make_framestyle allowed_children doc name
  | table => make_tablestyle allowed_children doc name
  | list_family => make_liststyle allowed_children doc name
  end.

(** The container the helper of a family registers into. *)
Definition container (doc : document) (f : style_family) : ref :=
  match f with
  | paragraph | character | graphic => styles doc
  | table | list_family => automaticstyles doc
  end.

(** The document handle is live in the world: its two style containers
    are store cells of the right kind. *)
Definition doc_live (w : world) (doc : document) : Prop :=
  tagName <$> heap w !! styles doc = Some office_styles
  ∧ tagName <$> heap w !! automaticstyles doc = Some office_automatic_styles.

(** The world in which a document has just been opened. *)
Definition fresh_world : world :=
  (OpenDocumentText empty_world).2.


(** ** What the helpers leave in the store *)

(** The style entry a helper of the five families creates. *)
Definition style_element (f : style_family) (name : string) : element :=
  match f with
  | list_family => Element text_list_style [("name", VStr name)] []
  | _ => Element style_style
           [("name", VStr name); ("family", VStr (family_name f))] []
  end.

(** The bullet level [make_liststyle] gives every list style. *)
Definition bullet_level : element :=
  Element text_list_level_style_bullet
    [("level", VStr "1"); ("bulletchar", VStr "•")] [].

(** The document handle is live for page styles: the containers
    [make_pagestyle] appends to are store cells of the right kind. *)
Definition page_live (w : world) (doc : document) : Prop :=
  tagName <$> heap w !! automaticstyles doc = Some office_automatic_styles
  ∧ tagName <$> heap w !! masterstyles doc = Some office_master_styles.

(** The kinds a helper of each family nests: container kind, entry kind. *)
Definition register_nesting (f : style_family) : qname * qname :=
  match f with
  | paragraph | character | graphic => (office_styles, style_style)
  | table => (office_automatic_styles, style_style)
  | list_family => (office_automatic_styles, text_list_style)
  end.

(** ** Schemas that refuse part of the script *)



(** ** The shape of the store *)

(** The cells of [h] that list [r] among their children. *)
Definition parents (h : list element) (r : ref) : list ref :=
  filter (λ i, r ∈ children h i) (seq 0 (length h)).

(** Follow first parents upwards, for at most [fuel] steps, to a cell
    that has none. *)
Fixpoint root_of (fuel : nat) (h : list element) (r : ref) : option ref :=
  match fuel with
  | 0 => None
  | S n => match parents h r with
           | [] => Some r
           | p :: _ => root_of n h p
           end
  end.

Definition doc_parts (d : document) : list ref :=
  [styles d; automaticstyles d; masterstyles d; text d].

(** [r] hangs under one of the parts of the document [d]. *)
Definition attached (h : list element) (d : document) (r : ref) : Prop :=
  ∃ root, root_of (length h) h r = Some root ∧ root ∈ doc_parts d.

#[global] Instance attached_dec h d r : Decision (attached h d r).
Proof.
  unfold attached. destruct (root_of (length h) h r) as [root|].
  - destruct (decide (root ∈ doc_parts d)) as [Hin|Hout].
    + left. by exists root.
    + right. intros (root' & [= <-] & Hin). by apply Hout.
  - right. by intros (root' & [=] & _).
Defined.

(** [r] sits in the tree of the document [d]: a part of the document
    has no parent, any other cell has exactly one; the cell hangs under
    a part of the document, and lists no child twice. *)
Definition well_placed (h : list element) (d : document) (r : ref) : Prop :=
  (r ∈ doc_parts d → parents h r = [])
  ∧ (r ∉ doc_parts d → length (parents h r) = 1)
  ∧ attached h d r
  ∧ NoDup (children h r).

(** ** The targets of style references *)

(** The family of style a node of kind [q] refers to in the script. *)
Definition family_referred_by (q : qname) : string :=
  match q with
  | text_span => "text"
  | draw_frame => "graphic"
  | _ => "paragraph"
  end.

(** When the event appends a node with a style handle, the handle is an
    entry of the common styles of [d], of the family above. *)
Definition style_target_ok (h : list element) (d : document) (ev : event)
    : Prop :=
  match ev with
  | EvAdd _ _ _ ce =>
      match style_ref ce with
      | Some s =>
          s ∈ children h (styles d)
          ∧ h !! s ≫= family = Some (family_referred_by (tagName ce))
      | None => True
      end
  | _ => True
  end.

#[global] Instance style_target_ok_dec h d ev : Decision (style_target_ok h d ev).
Proof.
  destruct ev as [?|? ?|? ? ? ce|? ?|?]; simpl; try apply _.
  destruct (style_ref ce); apply _.
Defined.

(** ** What a computation leaves alone *)

(** [keeps base m Q]: run in a world with at least [base] store cells,
    [m] leaves the first [base] cells as they are, removes no cell and
    nothing that was written or printed, and returns, when it returns,
    a value that satisfies [Q]. *)
Definition keeps (base : nat) {A} (m : M A) (Q : A → Prop) : Prop :=
  ∀ w, base ≤ length (heap w) →
    take base (heap (m w).2) = take base (heap w)
    ∧ length (heap w) ≤ length (heap (m w).2)
    ∧ written w `prefix_of` written (m w).2
    ∧ printed w `prefix_of` printed (m w).2
    ∧ ∀ a, (m w).1 = Ok a → Q a.

(** The handles of a document are all beyond the first [base] cells. *)
Definition doc_beyond (base : nat) (d : document) : Prop :=
  base ≤ styles d ∧ base ≤ automaticstyles d
  ∧ base ≤ masterstyles d ∧ base ≤ text d.

(** ** The two halves of a save *)



(** ** Usable handles *)


(** * Properties *)

Ltac by_compute :=
  lazymatch goal with
  | |- ?G => apply (bool_decide_unpack G); vm_compute; exact I
  end.

(** ** The schema *)

Lemma schema_accepts_spec allowed :
  schema_accepts allowed ↔ ∀ p c, (p, c) ∈ script_nestings → allowed p c = true.
Proof.
  unfold schema_accepts. rewrite forallb_forall. split.
  - intros H p c Hin. apply (H (p, c)). by apply list_elem_of_In.
  - intros H [p c] Hin. apply H. by apply list_elem_of_In.
Qed.

Lemma script_schema_accepted : schema_accepts script_schema.
Proof. reflexivity. Qed.

(** An accepting schema is indistinguishable, on the script's nestings,
    from one that answers them by table. *)
Lemma schema_patch allowed :
  schema_accepts allowed →
  allowed = λ p c, script_schema p c || allowed p c.
Proof.
  intros H. apply functional_extensionality; intros p.
  apply functional_extensionality; intros c.
  destruct (script_schema p c) eqn:E; [|reflexivity].
  apply bool_decide_eq_true in E.
  by rewrite (proj1 (schema_accepts_spec allowed) H p c E).
Qed.

(** What a run does, in one equation: it builds [built_world], then
    saves and reports, or stops at the save. *)
Lemma run_spec allowed writable arg :
  schema_accepts allowed →
  run allowed writable arg =
    let filename := default default_filename arg in
    let d := save_destination filename true in
    let p := Payload built_doc (heap built_world) in
    let msg := "Created " +:+ filename +:+ " successfully." in
    if writable d
    then (Ok (), World (heap built_world) [(d, p)] [msg]
                       (log built_world ++ [EvSave d p; EvPrint msg]))
    else (Raise (IOError d), built_world).
Proof.
  intros H. rewrite (schema_patch allowed H). cbv zeta.
  destruct (writable (save_destination (default default_filename arg) true)) eqn:E;
    vm_compute in E; vm_compute; rewrite E; reflexivity.
Qed.

Lemma run_heap allowed writable arg :
  schema_accepts allowed → heap (run allowed writable arg).2 = heap built_world.
Proof.
  intros H. rewrite (run_spec _ _ _ H). cbv zeta. by destruct (writable _).
Qed.

Lemma run_log allowed writable arg :
  schema_accepts allowed →
  ∃ tail, log (run allowed writable arg).2 = log built_world ++ tail
          ∧ Forall (λ ev, is_build ev = false) tail.
Proof.
  intros H. rewrite (run_spec _ _ _ H). cbv zeta. destruct (writable _).
  - eexists. split; [reflexivity|]. by repeat constructor.
  - exists []. split; [by rewrite app_nil_r | constructor].
Qed.

Lemma registrations_outputs l tail :
  Forall (λ ev, is_build ev = false) tail →
  registrations (l ++ tail) = registrations l.
Proof.
  intros H. unfold registrations. rewrite omap_app.
  rewrite <- (app_nil_r (omap _ l)) at 2. f_equal.
  induction H as [|ev tail Hev _ IH]; [done|].
  destruct ev; simpl in *; try done.
Qed.

Lemma documents_outputs l tail :
  Forall (λ ev, is_build ev = false) tail →
  documents (l ++ tail) = documents l.
Proof.
  intros H. unfold documents. rewrite omap_app.
  rewrite <- (app_nil_r (omap _ l)) at 2. f_equal.
  induction H as [|ev tail Hev _ IH]; [done|].
  destruct ev; simpl in *; try done.
Qed.

(** The schema table above lists exactly the nestings the script uses. *)
Lemma script_nestings_exact pc :
  pc ∈ adds (log built_world) ↔ pc ∈ script_nestings.
Proof.
  split; revert pc; apply Forall_forall; by_compute.
Qed.

(** ** C1: every style is in the style tables once *)

(** Across all kinds, no two styles of the script share even a name. *)
Lemma style_names_distinct :
  NoDup (attr_str "name" <$> (registrations (log built_world)).*2).
Proof. by_compute. Qed.

(** C1. The script makes 82 registration calls (28 paragraph, 13
    character, 1 graphic, 11 list and 11 table styles, and a page layout
    and a master page for each of 9 page styles); no two of them produce
    the same (name, family) pair, and the style tables of the built
    document hold exactly one entry for the pair of each. *)
Theorem style_entries_unique allowed writable arg :
  schema_accepts allowed →
  let w := (run allowed writable arg).2 in
  let regs := registrations (log w) in
  documents (log w) = [built_doc]
  ∧ length regs = 82
  ∧ NoDup (style_key <$> regs.*2)
  ∧ ∀ st e, (st, e) ∈ regs →
      entries_for (style_key e) (style_table (heap w) built_doc) = 1.
Proof.
  intros H w regs. subst regs w.
  destruct (run_log allowed writable arg H) as (tail & -> & Htail).
  rewrite (run_heap _ _ _ H), registrations_outputs, documents_outputs by done.
  split_and!.
  - reflexivity.
  - reflexivity.
  - by_compute.
  - intros st e Hin. revert st e Hin.
    cut (Forall (λ re, entries_for (style_key re.2)
                         (style_table (heap built_world) built_doc) = 1)
                (registrations (log built_world))).
    { intros HF st e Hin. apply (proj1 (Forall_forall _ _) HF (st, e) Hin). }
    by_compute.
Qed.

(** ** C2: the order of the calls *)






(** ** C10: style references *)

Lemma registered_before_cons ev l i s :
  registered_before l i s → registered_before (ev :: l) (S i) s.
Proof.
  intros (j & p & pe & se & Hj & Hl & Hc).
  exists (S j), p, pe, se. split_and!; [lia|done|done].
Qed.

(** The check [styled_after] decides the property it is named for. *)
Lemma styled_after_sound l :
  ∀ reg, styled_after reg l = true →
  ∀ i p c pe ce s, l !! i = Some (EvAdd p c pe ce) → style_ref ce = Some s →
                   s ∈ reg ∨ registered_before l i s.
Proof.
  induction l as [|ev l IH]; intros reg Hchk i p c pe ce s Hi Hs; [done|].
  destruct i as [|i]; simpl in Hi.
  - injection Hi as ->. simpl in Hchk. rewrite Hs in Hchk. simpl in Hchk.
    apply andb_prop in Hchk as [Hreg _]. left. by apply bool_decide_eq_true in Hreg.
  - destruct ev as [d|r e|p0 c0 pe0 ce0|d pl|msg]; simpl in Hchk;
      try (destruct (IH reg Hchk i p c pe ce s Hi Hs) as [?|?];
           [by left | right; by apply registered_before_cons]).
    apply andb_prop in Hchk as [_ Hchk].
    destruct (IH _ Hchk i p c pe ce s Hi Hs) as [Hin|Hbefore].
    + destruct (is_style_container (tagName pe0)) eqn:Hcont; [|by left].
      apply elem_of_cons in Hin as [->|Hin]; [|by left].
      right. exists 0, p0, pe0, ce0. split_and!; [lia|done|done].
    + right. by apply registered_before_cons.
Qed.

(** C10. Whenever a node that carries a style handle is appended, that
    handle has been registered in a style container by an earlier call
    of the same run. *)
Theorem style_refs_registered allowed writable arg :
  schema_accepts allowed →
  let l := log (run allowed writable arg).2 in
  ∀ i p c pe ce s, l !! i = Some (EvAdd p c pe ce) → style_ref ce = Some s →
                   registered_before l i s.
Proof.
  intros H l i p c pe ce s Hi Hs.
  destruct (styled_after_sound l [] ltac:(subst l; rewrite (run_spec _ _ _ H);
    cbv zeta; destruct (writable _); vm_compute; reflexivity) i p c pe ce s Hi Hs)
    as [Hin|?]; [|done].
  by apply elem_of_nil in Hin.
Qed.

(** The property is not vacuous: 35 of the appended nodes carry a style
    handle (29 paragraphs, 4 spans, the list and the frame). *)
Lemma styled_nodes_count :
  length (filter (λ ev, carries_style ev = true) (log built_world)) = 35.
Proof. reflexivity. Qed.

(** ** C8: what happens to an element once it is appended *)

(** No library call of the model removes or rewrites a store cell. *)
Lemma grown_refl e : grown e e.
Proof. by split_and!. Qed.

Lemma grown_appendChild c e : grown e (appendChild c e).
Proof. split_and!; [done|done|]. by apply prefix_app_r. Qed.

Lemma new_extends q kwargs txt w :
  heap_extends (heap w) (heap (new q kwargs txt w).2).
Proof.
  intros r e Hr. exists e. split; [|apply grown_refl].
  simpl. by apply lookup_app_l_Some.
Qed.

Lemma addElement_extends allowed parent child w :
  heap_extends (heap w) (heap (addElement allowed parent child w).2).
Proof.
  intros r e Hr. unfold addElement.
  destruct (heap w !! parent) as [pe|] eqn:Hp;
    [destruct (heap w !! child) as [ce|] eqn:Hc;
       [destruct (allowed _ _)|]|];
    simpl; try (exists e; split; [done|apply grown_refl]).
  destruct (decide (parent = r)) as [->|Hne].
  - exists (appendChild (Child child) e). split; [|apply grown_appendChild].
    rewrite list_lookup_alter_eq, Hr. done.
  - exists e. split; [|apply grown_refl]. by rewrite list_lookup_alter_ne.
Qed.

(** The claim as stated fails: the page-break paragraph (store cell 124)
    is appended to the document text by event 242 and gets its span
    child after that. *)
Lemma appended_paragraph_changes :
  ¬ frozen_after_append (run script_schema any_storage None).2.
Proof.
  intros H.
  destruct (log (run script_schema any_storage None).2 !! 242) as [ev|] eqn:E;
    [|by vm_compute in E].
  pose proof (list_elem_of_lookup_2 _ _ _ E) as Hin.
  vm_compute in E. injection E as <-.
  apply H in Hin. by vm_compute in Hin.
Qed.

(** C8, amended.  What the save writes is the store as it is at the end
    of the run: nothing changes after the save.  Before the save, an
    element that was created or appended keeps its kind, its attributes
    and its child nodes, in order; child nodes may be added at the end.
    No element is removed from the store. *)
Theorem appended_elements_only_grow allowed writable arg :
  schema_accepts allowed →
  let w := (run allowed writable arg).2 in
  (∀ d p, (d, p) ∈ written w → saved_heap p = heap w)
  ∧ (∀ ev, ev ∈ log w → event_kept (heap w) ev).
Proof.
  intros H w. subst w. rewrite (run_spec _ _ _ H). cbv zeta.
  destruct (writable _); cbn [snd written heap log].
  - split.
    + intros d p Hin. apply list_elem_of_singleton in Hin.
      change p with (d, p).2. rewrite Hin. reflexivity.
    + apply Forall_forall, Forall_app. split; [by_compute|by repeat constructor].
  - split.
    + intros d p Hin. vm_compute in Hin. by apply elem_of_nil in Hin.
    + apply Forall_forall. by_compute.
Qed.

(** ** C9: the file name is confined to the save and the report *)

(** C9. Take two runs, under any two accepting schemas, any two
    storages and any two file name arguments.  They build the same
    store (the same styles and content nodes, in the same order, with
    the same text) by the same sequence of calls.  A run writes nothing
    or one payload, and the payload is the same in both; it prints
    nothing or one line.  Only the destination and the line depend on
    the file name. *)
Theorem filename_only_names_output allowed1 allowed2 writable1 writable2 arg1 arg2 :
  schema_accepts allowed1 → schema_accepts allowed2 →
  let w1 := (run allowed1 writable1 arg1).2 in
  let w2 := (run allowed2 writable2 arg2).2 in
  let outcome (writable : destination → bool) arg (w : world) :=
    let filename := default default_filename arg in
    let d := save_destination filename true in
    written w = (if writable d
                 then [(d, Payload built_doc (heap built_world))] else [])
    ∧ printed w = (if writable d
                   then ["Created " +:+ filename +:+ " successfully."] else []) in
  heap w1 = heap w2
  ∧ filter (λ ev, is_build ev = true) (log w1)
    = filter (λ ev, is_build ev = true) (log w2)
  ∧ outcome writable1 arg1 w1
  ∧ outcome writable2 arg2 w2.
Proof.
  intros H1 H2 w1 w2 outcome. subst w1 w2 outcome. cbv zeta.
  rewrite (run_spec _ _ _ H1), (run_spec _ _ _ H2). cbv zeta.
  assert (written built_world = [] ∧ printed built_world = []) as [Hw Hp]
    by (split; reflexivity).
  revert Hw Hp. generalize built_world. intros B Hw Hp.
  destruct (writable1 _), (writable2 _); cbn [snd written printed heap log];
    rewrite ?filter_app, ?Hw, ?Hp;
    rewrite ?filter_cons_False, ?filter_nil, ?app_nil_r by (simpl; congruence);
    split_and!; reflexivity.
Qed.

(** ** C4: the file written for the default name *)

(** The claim as stated fails: with no argument, no file is written
    under the default name itself. *)
Lemma no_file_at_default_name :
  ¬ ∃ p, written (run script_schema any_storage None).2
         = [(File default_filename, p)].
Proof. intros [p Hp]. by vm_compute in Hp. Qed.

(** C4, amended.  With no argument, and a storage that takes the
    write, the run succeeds and writes exactly one file: the document as
    built, under the default name with the suffix [.odt] that [save]
    adds. *)
Theorem default_run_writes_one_file allowed writable :
  schema_accepts allowed →
  writable (File "LibreOfficeStylesRefDoc.odt") = true →
  let r := run allowed writable None in
  r.1 = Ok ()
  ∧ written r.2 = [(File "LibreOfficeStylesRefDoc.odt",
                    Payload built_doc (heap r.2))].
Proof.
  intros H Hw r. subst r. rewrite (run_spec _ _ _ H). cbv zeta.
  assert (save_destination (default default_filename None) true
          = File "LibreOfficeStylesRefDoc.odt") as -> by reflexivity.
  rewrite Hw. generalize built_world. intros B. split; reflexivity.
Qed.

(** ** C7: the report *)

(** C7. When the save succeeds, the run returns normally with the unit
    value, which is all it ever returns, and has printed exactly one
    line, which names the destination it was given. *)
Theorem success_is_reported allowed writable arg :
  schema_accepts allowed →
  let filename := default default_filename arg in
  writable (save_destination filename true) = true →
  let r := run allowed writable arg in
  r.1 = Ok ()
  ∧ printed r.2 = ["Created " +:+ filename +:+ " successfully."].
Proof.
  intros H filename Hw r. subst r filename. rewrite (run_spec _ _ _ H).
  cbv zeta. rewrite Hw. generalize built_world. intros B.
  split; reflexivity.
Qed.

(** When the storage refuses the write, the run raises and prints
    nothing. *)
Lemma failure_is_not_reported allowed writable arg :
  schema_accepts allowed →
  let d := save_destination (default default_filename arg) true in
  writable d = false →
  let r := run allowed writable arg in
  r.1 = Raise (IOError d) ∧ printed r.2 = [] ∧ written r.2 = [].
Proof.
  intros H d Hw r. subst r d. rewrite (run_spec _ _ _ H).
  cbv zeta. rewrite Hw.
  assert (written built_world = [] ∧ printed built_world = []) as [Hwr Hpr]
    by (split; reflexivity).
  revert Hwr Hpr. generalize built_world. intros B Hwr Hpr.
  cbn [fst snd]. by split_and!.
Qed.

(** The [__main__] block is the run with the default name spelled out. *)
Lemma main_is_default_run allowed writable :
  main allowed writable empty_world = run allowed writable None.
Proof. reflexivity. Qed.

(** ** C3: the registration helpers *)

Lemma heap_extends_refl h : heap_extends h h.
Proof. intros r e Hr. exists e. split; [done|apply grown_refl]. Qed.









(** The shape all helpers share: create an element, append it to a
    live parent that the schema allows, go on with the new handle. *)
Lemma new_then_add {A} allowed c q kw (k : ref → M A) w pe :
  heap w !! c = Some pe → allowed (tagName pe) q = true →
  (new q kw None ≫= λ st, addElement allowed c st ≫= λ _, k st) w
  = k (length (heap w))
      (World (alter (appendChild (Child (length (heap w)))) c
                    (heap w ++ [Element q kw []]))
             (written w) (printed w)
             ((log w ++ [EvNew (length (heap w)) (Element q kw [])])
              ++ [EvAdd c (length (heap w)) pe (Element q kw [])])).
Proof.
  intros Hc Hq. unfold mbind, M_bind, new, addElement. cbn [heap].
  rewrite (lookup_app_l_Some _ _ _ _ Hc), list_lookup_middle by done.
  cbn [tagName]. by rewrite Hq.
Qed.


Lemma added_is_live h c pe e :
  h !! c = Some pe →
  alter (appendChild (Child (length h))) c (h ++ [e]) !! length h = Some e.
Proof.
  intros Hc. pose proof (lookup_lt_Some _ _ _ Hc).
  rewrite list_lookup_alter_ne by lia. by apply list_lookup_middle.
Qed.



(** The last statement of a helper that returns nothing. *)
Lemma new_then_add_last allowed c q kw w pe :
  heap w !! c = Some pe → allowed (tagName pe) q = true →
  (new q kw None ≫= λ st, addElement allowed c st) w
  = (Ok (),
     World (alter (appendChild (Child (length (heap w)))) c
                  (heap w ++ [Element q kw []]))
           (written w) (printed w)
           ((log w ++ [EvNew (length (heap w)) (Element q kw [])])
            ++ [EvAdd c (length (heap w)) pe (Element q kw [])])).
Proof.
  intros Hc Hq. unfold mbind, M_bind, new, addElement. cbn [heap].
  rewrite (lookup_app_l_Some _ _ _ _ Hc), list_lookup_middle by done.
  cbn [tagName]. by rewrite Hq.
Qed.

(** The world a helper of the five families leaves, in full. *)
Lemma register_world allowed w doc f name :
  schema_accepts allowed → doc_live w doc →
  ∃ pe, heap w !! container doc f = Some pe
    ∧ tagName pe = (register_nesting f).1
    ∧ ∃ lg,
        register allowed doc f name w
        = (Ok (length (heap w)),
           World
             (match f with
              | list_family =>
                  alter (appendChild (Child (S (length (heap w)))))
                    (length (heap w))
                    (alter (appendChild (Child (length (heap w))))
                       (container doc f)
                       (heap w ++ [style_element f name])
                     ++ [bullet_level])
              | _ =>
                  alter (appendChild (Child (length (heap w))))
                    (container doc f) (heap w ++ [style_element f name])
              end)
             (written w) (printed w) lg).
Proof.
  intros Hs [L1 L2].
  apply fmap_Some in L1 as (e1 & H1 & T1), L2 as (e2 & H2 & T2).
  symmetry in T1, T2.
  pose proof (proj1 (schema_accepts_spec allowed) Hs) as Hok.
  destruct f; unfold register, make_parastyle, make_charstyle, make_framestyle,
    make_tablestyle, make_liststyle, Style, ListStyle, ListLevelStyleBullet;
    cbn [container family_name register_nesting style_element fst].
  1-3: exists e1; split; [exact H1|]; split; [exact T1|];
       erewrite new_then_add by
         (first [exact H1 | rewrite T1; apply Hok; by_compute]);
       eexists; reflexivity.
  - exists e2. split; [exact H2|]. split; [exact T2|].
    erewrite new_then_add by
      (first [exact H2 | rewrite T2; apply Hok; by_compute]).
    eexists; reflexivity.
  - exists e2. split; [exact H2|]. split; [exact T2|].
    erewrite new_then_add by
      (first [exact H2 | rewrite T2; apply Hok; by_compute]).
    erewrite (new_then_add allowed (length (heap w)) _ _
                (λ _, mret (length (heap w))))
      by (first [by eapply added_is_live | apply Hok; by_compute]).
    cbn [heap]. rewrite length_alter, length_app. cbn [length].
    replace (length (heap w) + 1) with (S (length (heap w))) by lia.
    eexists; reflexivity.
Qed.




(** ** The schema check in the model *)

(** [addElement] raises exactly when the schema refuses the nesting;
    which nestings the library refuses is the library's table. *)
Lemma addElement_refused allowed parent child w pe ce :
  heap w !! parent = Some pe → heap w !! child = Some ce →
  allowed (tagName pe) (tagName ce) = false →
  addElement allowed parent child w
  = (Raise (IllegalChild (tagName ce) (tagName pe)), w).
Proof. intros Hp Hc Hno. unfold addElement. by rewrite Hp, Hc, Hno. Qed.

Lemma addElement_accepted allowed parent child w pe ce :
  heap w !! parent = Some pe → heap w !! child = Some ce →
  allowed (tagName pe) (tagName ce) = true →
  (addElement allowed parent child w).1 = Ok ().
Proof. intros Hp Hc Hyes. unfold addElement. by rewrite Hp, Hc, Hyes. Qed.

(** ** The theorems at a concrete run *)

Lemma style_entries_unique_witness :
  schema_accepts script_schema
  ∧ (let w := (run script_schema any_storage None).2 in
     let regs := registrations (log w) in
     documents (log w) = [built_doc]
     ∧ length regs = 82
     ∧ NoDup (style_key <$> regs.*2)
     ∧ ∀ st e, (st, e) ∈ regs →
         entries_for (style_key e) (style_table (heap w) built_doc) = 1).
Proof.
  split; [reflexivity|].
  apply (style_entries_unique script_schema any_storage None). reflexivity.
Defined.



Lemma default_run_writes_one_file_witness :
  schema_accepts script_schema
  ∧ any_storage (File "LibreOfficeStylesRefDoc.odt") = true
  ∧ (let r := run script_schema any_storage None in
     r.1 = Ok ()
     ∧ written r.2 = [(File "LibreOfficeStylesRefDoc.odt",
                       Payload built_doc (heap r.2))]).
Proof.
  split; [reflexivity|]. split; [reflexivity|].
  apply (default_run_writes_one_file script_schema any_storage); reflexivity.
Defined.

Lemma success_is_reported_witness :
  schema_accepts script_schema
  ∧ any_storage (save_destination (default default_filename (Some "styles")) true)
    = true
  ∧ (let r := run script_schema any_storage (Some "styles") in
     r.1 = Ok ()
     ∧ printed r.2
       = ["Created " +:+ default default_filename (Some "styles")
          +:+ " successfully."]).
Proof.
  split; [reflexivity|]. split; [reflexivity|].
  apply (success_is_reported script_schema any_storage (Some "styles"));
    reflexivity.
Defined.

Lemma appended_elements_only_grow_witness :
  schema_accepts script_schema
  ∧ (let w := (run script_schema any_storage None).2 in
     (∀ d p, (d, p) ∈ written w → saved_heap p = heap w)
     ∧ (∀ ev, ev ∈ log w → event_kept (heap w) ev)).
Proof.
  split; [reflexivity|].
  apply (appended_elements_only_grow script_schema any_storage None).
  reflexivity.
Defined.

Lemma filename_only_names_output_witness :
  schema_accepts script_schema ∧ schema_accepts all_allowed
  ∧ (let w1 := (run script_schema any_storage None).2 in
     let w2 := (run all_allowed no_storage (Some "elsewhere")).2 in
     let outcome (writable : destination → bool) arg (w : world) :=
       let filename := default default_filename arg in
       let d := save_destination filename true in
       written w = (if writable d
                    then [(d, Payload built_doc (heap built_world))] else [])
       ∧ printed w = (if writable d
                      then ["Created " +:+ filename +:+ " successfully."]
                      else []) in
     heap w1 = heap w2
     ∧ filter (λ ev, is_build ev = true) (log w1)
       = filter (λ ev, is_build ev = true) (log w2)
     ∧ outcome any_storage None w1
     ∧ outcome no_storage (Some "elsewhere") w2).
Proof.
  split; [reflexivity|]. split; [reflexivity|].
  apply (filename_only_names_output script_schema all_allowed
           any_storage no_storage None (Some "elsewhere")); reflexivity.
Defined.

Lemma style_refs_registered_witness :
  schema_accepts script_schema
  ∧ (let l := log (run script_schema any_storage None).2 in
     ∀ i p c pe ce s, l !! i = Some (EvAdd p c pe ce) → style_ref ce = Some s →
                      registered_before l i s).
Proof.
  split; [reflexivity|].
  apply (style_refs_registered script_schema any_storage None). reflexivity.
Defined.

(** * Further properties of the helpers *)

(** X3. A registration helper touches one store cell only: the
    container gains the new handle as its last child; every other cell
    that existed keeps its value, and nothing is written or printed. *)
Theorem register_touches_container_only allowed w doc f name :
  schema_accepts allowed → doc_live w doc →
  let r := register allowed doc f name w in
  let c := container doc f in
  (∀ i, i < length (heap w) → i ≠ c → heap r.2 !! i = heap w !! i)
  ∧ (∃ pe, heap w !! c = Some pe
           ∧ heap r.2 !! c
             = Some (appendChild (Child (length (heap w))) pe))
  ∧ written r.2 = written w ∧ printed r.2 = printed w.
Proof.
  intros Hs Hl r c. subst r c.
  destruct (register_world allowed w doc f name Hs Hl)
    as (pe & Hc & _ & lg & ->).
  pose proof (lookup_lt_Some _ _ _ Hc) as Hlt.
  cbn [snd heap written printed]. split_and!; [|exists pe; split; [done|]|done..].
  - intros i Hi Hne. destruct f;
      rewrite ?(list_lookup_alter_ne _ _ (length (heap w))) by lia;
      rewrite ?lookup_app_l by (rewrite ?length_alter, ?length_app; lia);
      rewrite list_lookup_alter_ne by done;
      by rewrite lookup_app_l by lia.
  - destruct f;
      rewrite ?(list_lookup_alter_ne _ _ (length (heap w))) by lia;
      rewrite ?lookup_app_l by (rewrite ?length_alter, ?length_app; lia);
      rewrite list_lookup_alter_eq, (lookup_app_l_Some _ _ _ _ Hc); done.
Qed.

(** X2. The list style [make_liststyle] returns has exactly one child:
    a bullet definition for level 1, created right after it. *)
Theorem liststyle_has_one_bullet_level allowed w doc name :
  schema_accepts allowed → doc_live w doc →
  let r := make_liststyle allowed doc name w in
  let ls := length (heap w) in
  r.1 = Ok ls
  ∧ heap r.2 !! ls
    = Some (Element text_list_style [("name", VStr name)] [Child (S ls)])
  ∧ heap r.2 !! S ls = Some bullet_level
  ∧ length (heap r.2) = S (S ls).
Proof.
  intros Hs Hl r ls. subst r ls.
  destruct (register_world allowed w doc list_family name Hs Hl)
    as (pe & Hc & _ & lg & Hr).
  cbn [register] in Hr. rewrite Hr. clear Hr.
  pose proof (lookup_lt_Some _ _ _ Hc) as Hlt.
  cbn [fst snd heap container style_element] in *. split_and!.
  - done.
  - rewrite list_lookup_alter_eq.
    rewrite lookup_app_l by (rewrite length_alter, length_app; simpl; lia).
    rewrite list_lookup_alter_ne by lia.
    by rewrite list_lookup_middle.
  - rewrite list_lookup_alter_ne by lia.
    rewrite lookup_app_r by (rewrite length_alter, length_app; simpl; lia).
    rewrite length_alter, length_app. simpl.
    by replace (S (length (heap w)) - (length (heap w) + 1)) with 0 by lia.
  - rewrite length_alter, length_app, length_alter, length_app. simpl. lia.
Qed.

Ltac by_length := rewrite ?length_alter, ?length_app; simpl; lia.

(** X1. On a live document [make_pagestyle] succeeds and returns
    nothing.  It leaves a page layout named after the page style with
    the suffix [_Layout], whose only child is the layout properties with
    a 2cm margin, as the last entry of the automatic styles; and a master
    page with the name itself, whose layout reference is that very
    layout, as the last entry of the master styles. *)
Theorem pagestyle_links_its_layout allowed w doc name :
  schema_accepts allowed → page_live w doc →
  let r := make_pagestyle allowed doc name w in
  let pl := length (heap w) in
  r.1 = Ok ()
  ∧ heap r.2 !! pl
    = Some (Element style_page_layout
              [("name", VStr (name +:+ "_Layout"))] [Child (S pl)])
  ∧ heap r.2 !! S pl
    = Some (Element style_page_layout_properties [("margin", VStr "2cm")] [])
  ∧ heap r.2 !! S (S pl)
    = Some (Element style_master_page
              [("name", VStr name); ("pagelayoutname", VRef pl)] [])
  ∧ (∃ ea, heap w !! automaticstyles doc = Some ea
           ∧ heap r.2 !! automaticstyles doc
             = Some (appendChild (Child pl) ea))
  ∧ (∃ em, heap w !! masterstyles doc = Some em
           ∧ heap r.2 !! masterstyles doc
             = Some (appendChild (Child (S (S pl))) em))
  ∧ length (heap r.2) = S (S (S pl)).
Proof.
  intros Hs [La Lm] r pl. subst r pl.
  apply fmap_Some in La as (ea & Ha & Ta), Lm as (em & Hm & Tm).
  symmetry in Ta, Tm.
  pose proof (proj1 (schema_accepts_spec allowed) Hs) as Hok.
  pose proof (lookup_lt_Some _ _ _ Ha) as Hlta.
  pose proof (lookup_lt_Some _ _ _ Hm) as Hltm.
  assert (automaticstyles doc ≠ masterstyles doc) as Hne
    by (intros Heq; rewrite Heq in Ha; congruence).
  set (n := length (heap w)) in *.
  set (PL := Element style_page_layout [("name", VStr (name +:+ "_Layout"))] []).
  set (PP := Element style_page_layout_properties [("margin", VStr "2cm")] []).
  set (MP := Element style_master_page
               [("name", VStr name); ("pagelayoutname", VRef n)] []).
  set (h1 := alter (appendChild (Child n)) (automaticstyles doc) (heap w ++ [PL])).
  set (h2 := alter (appendChild (Child (S n))) n (h1 ++ [PP])).
  assert (length h1 = S n) as Len1 by (subst h1 n; by_length).
  assert (length h2 = S (S n)) as Len2 by (subst h2; by_length).
  assert (h1 !! n = Some PL) as H1n by (by eapply added_is_live).
  assert (h1 !! masterstyles doc = Some em) as H1m.
  { subst h1. rewrite list_lookup_alter_ne by done.
    by apply lookup_app_l_Some. }
  assert (h2 !! masterstyles doc = Some em) as H2m.
  { subst h2. rewrite list_lookup_alter_ne by lia.
    by apply lookup_app_l_Some. }
  unfold make_pagestyle, PageLayout, PageLayoutProperties, MasterPage.
  erewrite new_then_add by
    (first [exact Ha | rewrite Ta; apply Hok; by_compute]).
  fold n PL h1.
  erewrite (new_then_add allowed n) by
    (cbn [heap]; first [exact H1n | apply Hok; by_compute]).
  cbn [heap]. rewrite Len1. fold PP h2.
  erewrite new_then_add_last by
    (cbn [heap]; first [exact H2m | rewrite Tm; apply Hok; by_compute]).
  cbn [fst snd heap]. rewrite Len2. fold MP.
  split_and!.
  - done.
  - rewrite list_lookup_alter_ne by lia.
    rewrite lookup_app_l by lia. subst h2.
    rewrite list_lookup_alter_eq, lookup_app_l by lia. by rewrite H1n.
  - rewrite list_lookup_alter_ne by lia.
    rewrite lookup_app_l by lia. subst h2.
    rewrite list_lookup_alter_ne by lia.
    rewrite <- Len1. by apply list_lookup_middle.
  - rewrite list_lookup_alter_ne by lia.
    rewrite <- Len2. by apply list_lookup_middle.
  - exists ea. split; [done|].
    rewrite list_lookup_alter_ne by done.
    rewrite lookup_app_l by lia. subst h2.
    rewrite list_lookup_alter_ne by lia.
    rewrite lookup_app_l by lia. subst h1.
    by rewrite list_lookup_alter_eq, (lookup_app_l_Some _ _ _ _ Ha).
  - exists em. split; [done|].
    by rewrite list_lookup_alter_eq, (lookup_app_l_Some _ _ _ _ H2m).
  - by_length.
Qed.

(** X4. When the schema refuses the nesting a helper needs, the helper
    raises [IllegalChild] for it and registers nothing: every cell that
    existed keeps its value, the entry it had created stays outside the
    document, and nothing is written or printed. *)
Theorem register_refused_registers_nothing allowed w doc f name :
  doc_live w doc →
  allowed (register_nesting f).1 (register_nesting f).2 = false →
  let r := register allowed doc f name w in
  r.1 = Raise (IllegalChild (register_nesting f).2 (register_nesting f).1)
  ∧ heap r.2 = heap w ++ [style_element f name]
  ∧ written r.2 = written w ∧ printed r.2 = printed w.
Proof.
  intros [L1 L2] Hno r. subst r.
  apply fmap_Some in L1 as (e1 & H1 & T1), L2 as (e2 & H2 & T2).
  destruct f; unfold register, make_parastyle, make_charstyle, make_framestyle,
    make_tablestyle, make_liststyle, Style, ListStyle;
    cbn [register_nesting fst snd] in *;
    unfold mbind, M_bind, new, addElement; cbn [heap];
    rewrite ?(lookup_app_l_Some _ _ _ _ H1), ?(lookup_app_l_Some _ _ _ _ H2),
      list_lookup_middle by done;
    cbn [tagName]; rewrite <- ?T1, <- ?T2, Hno; by split_and!.
Qed.

(** * Runs under any schema *)




(** * The document that is built *)

(** X6. The store a run builds is a tree under the four parts of the
    document: every element the script creates has exactly one parent,
    the four parts have none, every element hangs under one of the
    parts (so nothing is left outside the document and there is no
    cycle), and no element is listed twice by its parent. *)
Theorem built_store_is_a_tree allowed writable arg :
  schema_accepts allowed →
  let h := heap (run allowed writable arg).2 in
  length h = 162 ∧ ∀ r, r < length h → well_placed h built_doc r.
Proof.
  intros H h. subst h. rewrite (run_heap _ _ _ H).
  split; [reflexivity|]. intros r Hr.
  assert (Forall (well_placed (heap built_world) built_doc)
                 (seq 0 (length (heap built_world)))) as HF by by_compute.
  apply (proj1 (Forall_forall _ _) HF). apply elem_of_seq. lia.
Qed.

(** X7. Every style handle carried by an appended content node is an
    entry of the common styles, never a list, table or page style.  A
    span refers to a character style and the frame to a graphic style;
    a paragraph refers to a paragraph style, and so does the list: its
    handle is the paragraph style named List, not a list style. *)
Theorem style_refs_target_common_styles allowed writable arg :
  schema_accepts allowed →
  let w := (run allowed writable arg).2 in
  (∀ p c pe ce s, EvAdd p c pe ce ∈ log w → style_ref ce = Some s →
      s ∈ children (heap w) (styles built_doc)
      ∧ heap w !! s ≫= family = Some (family_referred_by (tagName ce)))
  ∧ (∃ p c pe ce s, EvAdd p c pe ce ∈ log w ∧ tagName ce = text_list
       ∧ style_ref ce = Some s
       ∧ heap w !! s ≫= attr_str "name" = Some "List").
Proof.
  intros H w. subst w.
  destruct (run_log allowed writable arg H) as (tail & -> & Htail).
  rewrite (run_heap _ _ _ H). split.
  - intros p c pe ce s Hin Hs.
    assert (Forall (style_target_ok (heap built_world) built_doc)
                   (log built_world ++ tail)) as HF.
    { apply Forall_app. split; [by_compute|].
      eapply Forall_impl; [exact Htail|].
      intros [] Hb; try discriminate Hb; exact I. }
    revert HF. generalize (heap built_world). intros h HF.
    pose proof (proj1 (Forall_forall _ _) HF _ Hin) as Hok.
    unfold style_target_ok in Hok. rewrite Hs in Hok. exact Hok.
  - assert (∃ p c pe ce s,
              log built_world !! 132 = Some (EvAdd p c pe ce)
              ∧ tagName ce = text_list
              ∧ style_ref ce = Some s
              ∧ heap built_world !! s ≫= attr_str "name" = Some "List")
      as (p & c & pe & ce & s & Hev & Ht & Hs & Hn)
      by (do 5 eexists; split_and!; vm_compute; reflexivity).
    exists p, c, pe, ce, s.
    split_and!; [|exact Ht|exact Hs|exact Hn].
    apply elem_of_app. left. eapply list_elem_of_lookup_2. exact Hev.
Qed.

(** * What a call leaves alone *)

Lemma keeps_ret base {A} (a : A) (Q : A → Prop) :
  Q a → keeps base (mret a) Q.
Proof.
  intros HQ w Hw. unfold mret, M_ret. cbn [fst snd].
  split_and!; [done|done|done|done|]. by intros a' [= <-].
Qed.

Lemma keeps_bind base {A B} (m : M A) (f : A → M B) Q R :
  keeps base m Q → (∀ a, Q a → keeps base (f a) R) → keeps base (m ≫= f) R.
Proof.
  intros Hm Hf w Hw. destruct (Hm w Hw) as (Ht & Hl & Hwr & Hpr & HQ).
  unfold mbind, M_bind. destruct (m w) as [[a|e] w'] eqn:E; cbn [fst snd] in *.
  - destruct (Hf a (HQ a eq_refl) w' ltac:(lia)) as (Ht' & Hl' & Hwr' & Hpr' & HR).
    split_and!; [congruence|lia|by etrans|by etrans|done].
  - split_and!; [done|done|done|done|]. by intros b [=].
Qed.

Lemma keeps_new base q kwargs txt :
  keeps base (new q kwargs txt) (λ st, base ≤ st).
Proof.
  intros w Hw. unfold new. cbn [fst snd heap written printed].
  split_and!; [by apply take_app_le|by_length|done|done|].
  by intros a [= <-].
Qed.

Lemma keeps_addElement base allowed parent child :
  base ≤ parent → keeps base (addElement allowed parent child) (λ _, True).
Proof.
  intros Hp w Hw. unfold addElement.
  destruct (heap w !! parent) as [pe|];
    [destruct (heap w !! child) as [ce|]; [destruct (allowed _ _)|]|];
    cbn [fst snd heap written printed]; split_and!; try done.
  - by apply take_alter_ge.
  - by rewrite length_alter.
Qed.

Lemma keeps_OpenDocumentText base :
  keeps base OpenDocumentText (doc_beyond base).
Proof.
  intros w Hw. unfold OpenDocumentText. cbn [fst snd heap written printed].
  split_and!; [by apply take_app_le|by_length|done|done|].
  intros a [= <-]. unfold doc_beyond. cbn. lia.
Qed.

Lemma keeps_save base writable doc outputfile addsuffix :
  keeps base (save writable doc outputfile addsuffix) (λ _, True).
Proof.
  intros w Hw. unfold save. destruct (writable _);
    cbn [fst snd heap written printed]; split_and!; try done.
  by apply prefix_app_r.
Qed.

Lemma keeps_print base msg : keeps base (print msg) (λ _, True).
Proof.
  intros w Hw. unfold print. cbn [fst snd heap written printed].
  split_and!; try done. by apply prefix_app_r.
Qed.

(** One step of a proof that a computation keeps the first cells:
    split a sequence, or close a library call whose parent handle is
    known to lie beyond them. *)
Ltac keeps_tac :=
  lazymatch goal with
  | |- keeps _ (mbind _ _) _ =>
      eapply keeps_bind;
      [ keeps_tac
      | let a := fresh "a" in
        let Ha := fresh "Ha" in
        intros a Ha; try (destruct Ha as (? & ? & ? & ?)); keeps_tac ]
  | |- keeps _ (mret _) _ => apply keeps_ret; assumption
  | |- keeps _ (addElement _ _ _) _ => apply keeps_addElement; assumption
  | |- keeps _ (save _ _ _ _) _ => apply keeps_save
  | |- keeps _ (print _) _ => apply keeps_print
  | |- keeps _ OpenDocumentText _ => apply keeps_OpenDocumentText
  | |- _ => apply keeps_new
  end.

Lemma keeps_make_parastyle base allowed doc name :
  base ≤ styles doc →
  keeps base (make_parastyle allowed doc name) (λ st, base ≤ st).
Proof. intros Hd. unfold make_parastyle. keeps_tac. Qed.

Lemma keeps_make_charstyle base allowed doc name :
  base ≤ styles doc →
  keeps base (make_charstyle allowed doc name) (λ st, base ≤ st).
Proof. intros Hd. unfold make_charstyle. keeps_tac. Qed.

Lemma keeps_make_framestyle base allowed doc name :
  base ≤ styles doc →
  keeps base (make_framestyle allowed doc name) (λ st, base ≤ st).
Proof. intros Hd. unfold make_framestyle. keeps_tac. Qed.

Lemma keeps_make_tablestyle base allowed doc name :
  base ≤ automaticstyles doc →
  keeps base (make_tablestyle allowed doc name) (λ st, base ≤ st).
Proof. intros Hd. unfold make_tablestyle. keeps_tac. Qed.

Lemma keeps_make_liststyle base allowed doc name :
  base ≤ automaticstyles doc →
  keeps base (make_liststyle allowed doc name) (λ st, base ≤ st).
Proof. intros Hd. unfold make_liststyle. keeps_tac. Qed.

Lemma keeps_make_pagestyle base allowed doc name :
  base ≤ automaticstyles doc → base ≤ masterstyles doc →
  keeps base (make_pagestyle allowed doc name) (λ _, True).
Proof. intros Ha Hm. unfold make_pagestyle. keeps_tac. Qed.

(** The same for the script, whose steps include the helpers. *)
Ltac keeps_script :=
  lazymatch goal with
  | |- keeps _ (mbind _ _) _ =>
      eapply keeps_bind;
      [ keeps_script
      | let a := fresh "a" in
        let Ha := fresh "Ha" in
        intros a Ha; try (destruct Ha as (? & ? & ? & ?)); keeps_script ]
  | |- keeps _ (make_parastyle _ _ _) _ => apply keeps_make_parastyle; assumption
  | |- keeps _ (make_charstyle _ _ _) _ => apply keeps_make_charstyle; assumption
  | |- keeps _ (make_framestyle _ _ _) _ => apply keeps_make_framestyle; assumption
  | |- keeps _ (make_tablestyle _ _ _) _ => apply keeps_make_tablestyle; assumption
  | |- keeps _ (make_liststyle _ _ _) _ => apply keeps_make_liststyle; assumption
  | |- keeps _ (make_pagestyle _ _ _) _ => apply keeps_make_pagestyle; assumption
  | |- _ => keeps_tac
  end.

Lemma keeps_create_odt_ref_doc base allowed writable arg :
  keeps base (create_odt_ref_doc allowed writable arg) (λ _, True).
Proof. unfold create_odt_ref_doc. cbv zeta. keeps_script. Qed.

(** X8. A call of [create_odt_ref_doc], in any world, under any schema
    and storage, whether it returns or raises, changes no store cell
    that existed before the call and removes nothing that had been
    written or printed: it only adds to the store, to what is written
    and to what is printed. *)
Theorem call_leaves_existing_cells allowed writable arg w :
  let r := create_odt_ref_doc allowed writable arg w in
  heap w `prefix_of` heap r.2
  ∧ written w `prefix_of` written r.2
  ∧ printed w `prefix_of` printed r.2.
Proof.
  intros r. subst r.
  destruct (keeps_create_odt_ref_doc (length (heap w)) allowed writable arg w
              ltac:(lia)) as (Ht & _ & Hwr & Hpr & _).
  split_and!; [|exact Hwr|exact Hpr].
  rewrite (take_ge (heap w)) in Ht by lia. rewrite <- Ht at 1.
  apply prefix_take.
Qed.

(** ** The further theorems at a concrete world *)


Lemma pagestyle_links_its_layout_witness :
  schema_accepts script_schema
  ∧ page_live fresh_world built_doc
  ∧ (let r := make_pagestyle script_schema built_doc "First Page" fresh_world in
     let pl := length (heap fresh_world) in
     r.1 = Ok ()
     ∧ heap r.2 !! pl
       = Some (Element style_page_layout
                 [("name", VStr ("First Page" +:+ "_Layout"))] [Child (S pl)])
     ∧ heap r.2 !! S pl
       = Some (Element style_page_layout_properties [("margin", VStr "2cm")] [])
     ∧ heap r.2 !! S (S pl)
       = Some (Element style_master_page
                 [("name", VStr "First Page"); ("pagelayoutname", VRef pl)] [])
     ∧ (∃ ea, heap fresh_world !! automaticstyles built_doc = Some ea
              ∧ heap r.2 !! automaticstyles built_doc
                = Some (appendChild (Child pl) ea))
     ∧ (∃ em, heap fresh_world !! masterstyles built_doc = Some em
              ∧ heap r.2 !! masterstyles built_doc
                = Some (appendChild (Child (S (S pl))) em))
     ∧ length (heap r.2) = S (S (S pl))).
Proof.
  split; [reflexivity|]. split; [split; reflexivity|].
  apply (pagestyle_links_its_layout script_schema fresh_world built_doc
           "First Page"); [reflexivity|split; reflexivity].
Defined.

Lemma liststyle_has_one_bullet_level_witness :
  schema_accepts script_schema
  ∧ doc_live fresh_world built_doc
  ∧ (let r := make_liststyle script_schema built_doc "Bullet 1" fresh_world in
     let ls := length (heap fresh_world) in
     r.1 = Ok ls
     ∧ heap r.2 !! ls
       = Some (Element text_list_style [("name", VStr "Bullet 1")]
                 [Child (S ls)])
     ∧ heap r.2 !! S ls = Some bullet_level
     ∧ length (heap r.2) = S (S ls)).
Proof.
  split; [reflexivity|]. split; [split; reflexivity|].
  apply (liststyle_has_one_bullet_level script_schema fresh_world built_doc
           "Bullet 1"); [reflexivity|split; reflexivity].
Defined.

Lemma register_touches_container_only_witness :
  schema_accepts script_schema
  ∧ doc_live fresh_world built_doc
  ∧ (let r := register script_schema built_doc table "Academic" fresh_world in
     let c := container built_doc table in
     (∀ i, i < length (heap fresh_world) → i ≠ c →
           heap r.2 !! i = heap fresh_world !! i)
     ∧ (∃ pe, heap fresh_world !! c = Some pe
              ∧ heap r.2 !! c
                = Some (appendChild (Child (length (heap fresh_world))) pe))
     ∧ written r.2 = written fresh_world
     ∧ printed r.2 = printed fresh_world).
Proof.
  split; [reflexivity|]. split; [split; reflexivity|].
  apply (register_touches_container_only script_schema fresh_world built_doc
           table "Academic"); [reflexivity|split; reflexivity].
Defined.

Lemma register_refused_registers_nothing_witness :
  doc_live fresh_world built_doc
  ∧ nothing_allowed (register_nesting character).1
      (register_nesting character).2 = false
  ∧ (let r := register nothing_allowed built_doc character "Emphasis"
                fresh_world in
     r.1 = Raise (IllegalChild (register_nesting character).2
                    (register_nesting character).1)
     ∧ heap r.2 = heap fresh_world ++ [style_element character "Emphasis"]
     ∧ written r.2 = written fresh_world
     ∧ printed r.2 = printed fresh_world).
Proof.
  split; [split; reflexivity|]. split; [reflexivity|].
  apply (register_refused_registers_nothing nothing_allowed fresh_world
           built_doc character "Emphasis"); [split; reflexivity|reflexivity].
Defined.

Lemma built_store_is_a_tree_witness :
  schema_accepts script_schema
  ∧ (let h := heap (run script_schema any_storage None).2 in
     length h = 162 ∧ ∀ r, r < length h → well_placed h built_doc r).
Proof.
  split; [reflexivity|].
  apply (built_store_is_a_tree script_schema any_storage None). reflexivity.
Defined.

Lemma style_refs_target_common_styles_witness :
  schema_accepts script_schema
  ∧ (let w := (run script_schema any_storage None).2 in
     (∀ p c pe ce s, EvAdd p c pe ce ∈ log w → style_ref ce = Some s →
         s ∈ children (heap w) (styles built_doc)
         ∧ heap w !! s ≫= family = Some (family_referred_by (tagName ce)))
     ∧ (∃ p c pe ce s, EvAdd p c pe ce ∈ log w ∧ tagName ce = text_list
          ∧ style_ref ce = Some s
          ∧ heap w !! s ≫= attr_str "name" = Some "List")).
Proof.
  split; [reflexivity|].
  apply (style_refs_target_common_styles script_schema any_storage None).
  reflexivity.
Defined.
